(** * async-timer: the POSIX timer wrapper [src/c_wrapper/posix.c]

    The C wrapper [posix_timer] builds a [struct sigevent] and registers a
    timer with the host through [timer_create].  The host (libc and kernel)
    is not part of the repository: it is a handler that answers the calls the
    wrapper issues, and the statements about the wrapper are made for an
    arbitrary handler.  A small table-based host serves to run the wrapper on
    concrete inputs. *)

From stdpp Require Import base option list gmap.
From Stdlib Require Import ZArith.

Local Open Scope Z_scope.

(** ** C data of <signal.h> and <time.h> *)

(** Object and function pointers are addresses; [NULL] is address 0. *)
Definition ptr := Z.
Definition NULL : ptr := 0.

(** [typedef void ( *callback)(union sigval);] *)
Definition callback := Z.

(** [timer_t] is an opaque scalar ([void *] with glibc, musl and bionic, an
    [int] on illumos); the wrapper stores and returns it and computes
    nothing with it, so its width plays no part. *)
Definition timer_t := Z.
Definition clockid_t := Z.

(** Values of the Linux headers. *)
Definition CLOCK_REALTIME : clockid_t := 0.
Definition CLOCK_MONOTONIC : clockid_t := 1.
Definition SIGEV_SIGNAL : Z := 0.
Definition SIGEV_NONE : Z := 1.
Definition SIGEV_THREAD : Z := 2.

(** [union sigval]: the wrapper only writes the pointer member. *)
Record sigval : Type := { sival_ptr : ptr }.

(** [struct sigevent], the members POSIX names. *)
Record sigevent : Type := {
  sigev_notify : Z;
  sigev_signo : Z;
  sigev_value : sigval;
  sigev_notify_function : callback;
  sigev_notify_attributes : ptr
}.

Record timespec : Type := { tv_sec : Z; tv_nsec : Z }.
Record itimerspec : Type := { it_interval : timespec; it_value : timespec }.

(** A brace initializer sets every member it does not name to zero. *)
Definition sigevent_zero : sigevent :=
  {| sigev_notify := 0;
     sigev_signo := 0;
     sigev_value := {| sival_ptr := NULL |};
     sigev_notify_function := NULL;
     sigev_notify_attributes := NULL |}.

Definition set_sigev_notify (v : Z) (s : sigevent) : sigevent :=
  {| sigev_notify := v;
     sigev_signo := sigev_signo s;
     sigev_value := sigev_value s;
     sigev_notify_function := sigev_notify_function s;
     sigev_notify_attributes := sigev_notify_attributes s |}.

Definition set_sigev_notify_function (f : callback) (s : sigevent) : sigevent :=
  {| sigev_notify := sigev_notify s;
     sigev_signo := sigev_signo s;
     sigev_value := sigev_value s;
     sigev_notify_function := f;
     sigev_notify_attributes := sigev_notify_attributes s |}.

(** [s.sigev_value.sival_ptr = p;] *)
Definition set_sival_ptr (p : ptr) (s : sigevent) : sigevent :=
  {| sigev_notify := sigev_notify s;
     sigev_signo := sigev_signo s;
     sigev_value := {| sival_ptr := p |};
     sigev_notify_function := sigev_notify_function s;
     sigev_notify_attributes := sigev_notify_attributes s |}.

(** ** Calls that leave the wrapper *)

(** What [timer_create] hands back: its return value, the identifier it
    stored through [timerid] (if it stored one) and the [errno] it left. *)
Record timer_create_reply : Type := {
  tc_ret : Z;
  tc_timerid : option timer_t;
  tc_errno : Z
}.

(** The host functions of <time.h> on timers, a blocking call, the
    allocator, and the call of a function pointer; the index is the type of
    the answer. *)
Inductive hostE : Type -> Type :=
| TimerCreate (clockid : clockid_t) (sevp : sigevent) : hostE timer_create_reply
| TimerSettime (timerid : timer_t) (flags : Z) (new_value : itimerspec) : hostE Z
| TimerDelete (timerid : timer_t) : hostE Z
| Nanosleep (req : timespec) : hostE Z
| Malloc (size : Z) : hostE ptr
| Free (p : ptr) : hostE unit
| Invoke (f : callback) (arg : sigval) : hostE unit.

(** A call together with the answer the host gave. *)
Inductive call : Type :=
| Call {X : Type} (e : hostE X) (x : X).

(** A C function body: it returns, or issues a call and goes on with the
    answer. *)
Inductive prog (A : Type) : Type :=
| Ret (a : A)
| Vis {X : Type} (e : hostE X) (k : X -> prog A).

Arguments Ret {A} a.
Arguments Vis {A X} e k.

Fixpoint bind {A B : Type} (p : prog A) (f : A -> prog B) : prog B :=
  match p with
  | Ret a => f a
  | Vis e k => Vis e (fun x => bind (k x) f)
  end.

Definition trigger {X : Type} (e : hostE X) : prog X := Vis e Ret.

#[global] Instance prog_ret : MRet prog := @Ret.
#[global] Instance prog_bind : MBind prog := fun A B f p => bind p f.

(** ** The wrapper *)

(** An automatic variable without initializer holds no value ([None]) until
    something is stored in it. *)
Definition store {A : Type} (written : option A) (cell : option A) : option A :=
  match written with
  | Some v => Some v
  | None => cell
  end.

(** [timer_t posix_timer(callback cb, void* data)].  The result is the value
    the C function returns; [None] is the indeterminate content of [id] when
    the host stored nothing there. *)
Definition posix_timer (cb : callback) (data : ptr) : prog (option timer_t) :=
  let id : option timer_t := None in
  let sev :=
    set_sigev_notify_function cb (set_sigev_notify SIGEV_THREAD sigevent_zero) in
  let sev := set_sival_ptr data sev in
  r ← trigger (TimerCreate CLOCK_REALTIME sev);
  let id := store (tc_timerid r) id in
  if tc_ret r =? -1 then mret (Some 0) else mret id.

(** ** Running a body against a host *)

Section Run.
Context {S : Type}.
Variable host : forall X : Type, hostE X -> S -> X * S.

(** The returned value, the host state left behind, and the calls made
    with their answers, oldest first. *)
Fixpoint run {A : Type} (p : prog A) (s : S) : A * S * list call :=
  match p with
  | Ret a => (a, s, [])
  | Vis e k =>
      let '(x, s1) := host _ e s in
      let '(a, s2, t) := run (k x) s1 in
      (a, s2, Call e x :: t)
  end.

Definition result {A : Type} (p : prog A) (s : S) : A := (run p s).1.1.
Definition final {A : Type} (p : prog A) (s : S) : S := (run p s).1.2.
Definition trace {A : Type} (p : prog A) (s : S) : list call := (run p s).2.
End Run.

(** The registrations among the calls of a run: clock, notification
    request and the host's answer. *)
Definition registration (c : call)
  : option (clockid_t * sigevent * timer_create_reply) :=
  match c with
  | Call e x =>
      match e in hostE T
            return T -> option (clockid_t * sigevent * timer_create_reply) with
      | TimerCreate clk sev => fun r => Some (clk, sev, r)
      | _ => fun _ => None
      end x
  end.

Definition registrations (t : list call)
  : list (clockid_t * sigevent * timer_create_reply) :=
  omap registration t.

(** Classes of calls. *)
Definition is_timer_create (c : call) : bool :=
  match c with Call (TimerCreate _ _) _ => true | _ => false end.

(** [timer_settime] is the one call that sets an expiration or an interval. *)
Definition arms (c : call) : bool :=
  match c with Call (TimerSettime _ _ _) _ => true | _ => false end.

Definition blocks (c : call) : bool :=
  match c with Call (Nanosleep _) _ => true | _ => false end.

Definition runs_callback (c : call) : bool :=
  match c with Call (Invoke _ _) _ => true | _ => false end.

Definition touches_heap (c : call) : bool :=
  match c with
  | Call (Malloc _) _ => true
  | Call (Free _) _ => true
  | _ => false
  end.

(** ** A table-based host

    A host after the POSIX description of [timer_create], [timer_settime]
    and [timer_delete].  Timers live in a per-process table indexed by small
    integers handed out in order from [k_next], and the index is the
    [timer_t]; at most [k_limit] timers exist at a time.  The allocator
    hands out no memory. *)

Definition EAGAIN : Z := 11.
Definition EINVAL : Z := 22.

Record ktimer : Type := {
  kt_clock : clockid_t;
  kt_sev : sigevent;
  kt_setting : option itimerspec
}.

Record kernel : Type := {
  k_timers : gmap Z ktimer;
  k_next : Z;
  k_limit : nat;
  k_errno : Z
}.

Definition set_errno (e : Z) (k : kernel) : kernel :=
  {| k_timers := k_timers k; k_next := k_next k;
     k_limit := k_limit k; k_errno := e |}.

Definition set_timers (m : gmap Z ktimer) (k : kernel) : kernel :=
  {| k_timers := m; k_next := k_next k;
     k_limit := k_limit k; k_errno := k_errno k |}.

Definition clock_supported (c : clockid_t) : bool :=
  (c =? CLOCK_REALTIME) || (c =? CLOCK_MONOTONIC).

Definition notify_supported (n : Z) : bool :=
  (n =? SIGEV_SIGNAL) || (n =? SIGEV_NONE) || (n =? SIGEV_THREAD).

Definition fail_create (e : Z) (k : kernel) : timer_create_reply * kernel :=
  ({| tc_ret := -1; tc_timerid := None; tc_errno := e |}, set_errno e k).

Definition host_timer_create (c : clockid_t) (sev : sigevent) (k : kernel)
  : timer_create_reply * kernel :=
  if negb (clock_supported c && notify_supported (sigev_notify sev)) then
    fail_create EINVAL k
  else if (k_limit k <=? size (k_timers k))%nat then
    fail_create EAGAIN k
  else
    let t := {| kt_clock := c; kt_sev := sev; kt_setting := None |} in
    ({| tc_ret := 0; tc_timerid := Some (k_next k); tc_errno := k_errno k |},
     {| k_timers := <[k_next k := t]> (k_timers k);
        k_next := k_next k + 1;
        k_limit := k_limit k;
        k_errno := k_errno k |}).

Definition disarming (v : itimerspec) : bool :=
  (tv_sec (it_value v) =? 0) && (tv_nsec (it_value v) =? 0).

Definition host_timer_settime (id : timer_t) (v : itimerspec) (k : kernel)
  : Z * kernel :=
  match k_timers k !! id with
  | None => (-1, set_errno EINVAL k)
  | Some t =>
      let t' := {| kt_clock := kt_clock t; kt_sev := kt_sev t;
                   kt_setting := if disarming v then None else Some v |} in
      (0, set_timers (<[id := t']> (k_timers k)) k)
  end.

Definition host_timer_delete (id : timer_t) (k : kernel) : Z * kernel :=
  match k_timers k !! id with
  | None => (-1, set_errno EINVAL k)
  | Some _ => (0, set_timers (delete id (k_timers k)) k)
  end.

Definition table_host (X : Type) (e : hostE X) : kernel -> X * kernel :=
  match e in hostE T return kernel -> T * kernel with
  | TimerCreate c sev => host_timer_create c sev
  | TimerSettime id _ v => host_timer_settime id v
  | TimerDelete id => host_timer_delete id
  | Nanosleep _ => fun k => (0, k)
  | Malloc _ => fun k => (NULL, k)
  | Free _ => fun k => (tt, k)
  | Invoke _ _ => fun k => (tt, k)
  end.

Definition boot (limit : nat) : kernel :=
  {| k_timers := ∅; k_next := 0; k_limit := limit; k_errno := 0 |}.

(** Every path through a body makes exactly [n] calls before it returns. *)
Inductive calls_exactly {A : Type} : nat -> prog A -> Prop :=
| calls_ret (a : A) : calls_exactly 0 (Ret a)
| calls_vis {X : Type} (e : hostE X) (k : X -> prog A) (n : nat) :
    (forall x, calls_exactly n (k x)) -> calls_exactly (Datatypes.S n) (Vis e k).

(** ** Sample inputs *)

(** The request the wrapper builds for callback address 4096 and context
    address 42. *)
Definition sev_4096_42 : sigevent :=
  {| sigev_notify := SIGEV_THREAD;
     sigev_signo := 0;
     sigev_value := {| sival_ptr := 42 |};
     sigev_notify_function := 4096;
     sigev_notify_attributes := NULL |}.

Definition reply_eagain : timer_create_reply :=
  {| tc_ret := -1; tc_timerid := None; tc_errno := EAGAIN |}.

Definition reply_id (v : timer_t) : timer_create_reply :=
  {| tc_ret := 0; tc_timerid := Some v; tc_errno := 0 |}.

(** A host whose table already holds timers 0 to 2 hands out 3. *)
Definition booted_3 : kernel :=
  final table_host
    (_ ← posix_timer 4096 0; _ ← posix_timer 4096 1; posix_timer 4096 2)
    (boot 8).

(** A host that answers every registration with the same reply and keeps
    no state. *)
Definition fixed_host (r : timer_create_reply) (X : Type) (e : hostE X)
  : unit -> X * unit :=
  match e in hostE T return unit -> T * unit with
  | TimerCreate _ _ => fun u => (r, u)
  | TimerSettime _ _ _ => fun u => (0, u)
  | TimerDelete _ => fun u => (0, u)
  | Nanosleep _ => fun u => (0, u)
  | Malloc _ => fun u => (NULL, u)
  | Free _ => fun u => (tt, u)
  | Invoke _ _ => fun u => (tt, u)
  end.

(** A reply that reports success and stores nothing through [timerid]. *)
Definition reply_unstored : timer_create_reply :=
  {| tc_ret := 0; tc_timerid := None; tc_errno := 0 |}.

(** * Properties *)

(** ** The monad and the interpreter *)

Lemma bind_trigger {X B : Type} (e : hostE X) (f : X -> prog B) :
  bind (trigger e) f = Vis e f.
Proof. reflexivity. Qed.

Section RunFacts.
Context {S : Type}.
Variable host : forall X : Type, hostE X -> S -> X * S.

Lemma run_vis {A X : Type} (e : hostE X) (k : X -> prog A) (s : S) :
  run host (Vis e k) s =
    (result host (k (host _ e s).1) (host _ e s).2,
     final host (k (host _ e s).1) (host _ e s).2,
     Call e (host _ e s).1 :: trace host (k (host _ e s).1) (host _ e s).2).
Proof.
  unfold result, final, trace. simpl.
  destruct (host X e s) as [x s1]. simpl.
  destruct (run host (k x) s1) as [[a s2] t]. reflexivity.
Qed.

(** What one run of the wrapper is: a single registration, then the
    branch on its return value. *)
Lemma run_posix_timer (cb : callback) (data : ptr) (s : S) :
  let sev := set_sival_ptr data
               (set_sigev_notify_function cb
                  (set_sigev_notify SIGEV_THREAD sigevent_zero)) in
  let e := TimerCreate CLOCK_REALTIME sev in
  let r := (host _ e s).1 in
  run host (posix_timer cb data) s =
    (if tc_ret r =? -1 then Some 0 else store (tc_timerid r) None,
     (host _ e s).2,
     [Call e r]).
Proof.
  intros sev e r.
  unfold posix_timer, mbind, prog_bind, mret, prog_ret.
  fold sev. fold e. rewrite bind_trigger, run_vis. fold r.
  unfold result, final, trace.
  destruct (tc_ret r =? -1); reflexivity.
Qed.
End RunFacts.

(** ** The result of the wrapper *)

Section Result.
Context {S : Type}.
Variable host : forall X : Type, hostE X -> S -> X * S.
Variables (cb : callback) (data : ptr) (s : S).

Lemma posix_timer_trace :
  exists r,
    trace host (posix_timer cb data) s =
      [Call (TimerCreate CLOCK_REALTIME
               (set_sival_ptr data
                  (set_sigev_notify_function cb
                     (set_sigev_notify SIGEV_THREAD sigevent_zero)))) r]
    /\ result host (posix_timer cb data) s =
         (if tc_ret r =? -1 then Some 0 else tc_timerid r).
Proof.
  pose proof (run_posix_timer host cb data s) as H. cbv zeta in H.
  eexists. unfold trace, result. rewrite H. simpl. split; [reflexivity|].
  destruct (tc_ret _ =? -1); [reflexivity|].
  destruct (tc_timerid _); reflexivity.
Qed.

Lemma posix_timer_registered clk sev r :
  In (clk, sev, r) (registrations (trace host (posix_timer cb data) s)) ->
  result host (posix_timer cb data) s =
    (if tc_ret r =? -1 then Some 0 else tc_timerid r).
Proof.
  destruct posix_timer_trace as (r0 & Ht & Hr). rewrite Ht, Hr.
  simpl. intros [H | []]. injection H as _ _ <-. reflexivity.
Qed.

(** C1: when the registration with the host fails ([timer_create] returns
    -1), [posix_timer] returns 0, whatever [errno] the host left and
    whatever it stored through [timerid]: the cause of the failure does
    not reach the returned value. *)
Theorem posix_timer_failure_sentinel clk sev r :
  In (clk, sev, r) (registrations (trace host (posix_timer cb data) s)) ->
  tc_ret r = -1 ->
  result host (posix_timer cb data) s = Some 0.
Proof.
  intros Hin Hret. rewrite (posix_timer_registered _ _ _ Hin), Hret.
  reflexivity.
Qed.

(** C2: when the registration succeeds ([timer_create] returns 0; the code
    asks only for a value other than -1), [posix_timer] returns the
    identifier the host stored through [timerid], unchanged. *)
Theorem posix_timer_success_identifier clk sev r v :
  In (clk, sev, r) (registrations (trace host (posix_timer cb data) s)) ->
  tc_ret r <> -1 ->
  tc_timerid r = Some v ->
  result host (posix_timer cb data) s = Some v.
Proof.
  intros Hin Hret Hid. rewrite (posix_timer_registered _ _ _ Hin).
  apply Z.eqb_neq in Hret. rewrite Hret. exact Hid.
Qed.

(** C3: for a host that answers [timer_create] as POSIX prescribes and
    keeps 0 for "no timer" (it returns -1, or it returns 0 and has stored
    an identifier other than 0), [posix_timer] returns a value, the
    sentinel 0 or an identifier other than 0; it returns an identifier
    other than 0 only when the registration succeeded, and then the one
    the host stored; and it returns the sentinel only when the
    registration failed. *)
Theorem posix_timer_no_partial_success clk sev r :
  In (clk, sev, r) (registrations (trace host (posix_timer cb data) s)) ->
  tc_ret r = -1
  \/ (tc_ret r = 0 /\ exists v, tc_timerid r = Some v /\ v <> 0) ->
  (exists v, result host (posix_timer cb data) s = Some v)
  /\ (tc_ret r = -1 -> result host (posix_timer cb data) s = Some 0)
  /\ (tc_ret r = 0 ->
       result host (posix_timer cb data) s = tc_timerid r
       /\ result host (posix_timer cb data) s <> Some 0)
  /\ (forall v, result host (posix_timer cb data) s = Some v -> v <> 0 ->
         tc_ret r = 0 /\ tc_timerid r = Some v)
  /\ (result host (posix_timer cb data) s = Some 0 -> tc_ret r = -1).
Proof.
  intros Hin Hhost. rewrite (posix_timer_registered _ _ _ Hin).
  destruct Hhost as [Hfail | (Hok & v0 & Hid & Hv0)].
  - rewrite Hfail. simpl. split; [exists 0; reflexivity|].
    split; [reflexivity|]. split; [discriminate|].
    split; [|reflexivity].
    intros v [= <-] Hv. contradiction.
  - rewrite Hok, Hid. simpl. split; [exists v0; reflexivity|].
    split; [discriminate|].
    split; [intros _; split; [reflexivity | congruence]|].
    split; [intros v [= <-] _; split; reflexivity|].
    intros [= ->]. contradiction.
Qed.
End Result.

(** A host with no room for a timer: the registration fails with EAGAIN. *)
Lemma posix_timer_failure_sentinel_witness :
  In (CLOCK_REALTIME, sev_4096_42, reply_eagain)
     (registrations (trace table_host (posix_timer 4096 42) (boot 0)))
  /\ tc_ret reply_eagain = -1
  /\ result table_host (posix_timer 4096 42) (boot 0) = Some 0.
Proof.
  split; [left; reflexivity|]. split; [reflexivity|].
  apply (posix_timer_failure_sentinel table_host 4096 42 (boot 0)
           CLOCK_REALTIME sev_4096_42 reply_eagain);
    [left; reflexivity | reflexivity].
Defined.

Lemma posix_timer_success_identifier_witness :
  In (CLOCK_REALTIME, sev_4096_42, reply_id 3)
     (registrations (trace table_host (posix_timer 4096 42) booted_3))
  /\ tc_ret (reply_id 3) <> -1
  /\ tc_timerid (reply_id 3) = Some 3
  /\ result table_host (posix_timer 4096 42) booted_3 = Some 3.
Proof.
  split; [left; vm_compute; reflexivity|]. split; [discriminate|].
  split; [reflexivity|].
  apply (posix_timer_success_identifier table_host 4096 42 booted_3
           CLOCK_REALTIME sev_4096_42 (reply_id 3) 3);
    [left; vm_compute; reflexivity | discriminate | reflexivity].
Defined.

Lemma posix_timer_no_partial_success_witness :
  In (CLOCK_REALTIME, sev_4096_42, reply_id 3)
     (registrations (trace table_host (posix_timer 4096 42) booted_3))
  /\ (tc_ret (reply_id 3) = -1
      \/ (tc_ret (reply_id 3) = 0
          /\ exists v, tc_timerid (reply_id 3) = Some v /\ v <> 0))
  /\ result table_host (posix_timer 4096 42) booted_3 = Some 3
  /\ result table_host (posix_timer 4096 42) booted_3 <> Some 0.
Proof.
  split; [left; vm_compute; reflexivity|].
  split; [right; split; [reflexivity | exists 3; split; [reflexivity | discriminate]]|].
  apply (posix_timer_no_partial_success table_host 4096 42 booted_3
           CLOCK_REALTIME sev_4096_42 (reply_id 3));
    [left; vm_compute; reflexivity
    |right; split; [reflexivity | exists 3; split; [reflexivity | discriminate]]
    |reflexivity].
Defined.

(** ** The request handed to the host *)

Section Request.
Context {S : Type}.
Variable host : forall X : Type, hostE X -> S -> X * S.
Variables (cb : callback) (data : ptr) (s : S).

Lemma posix_timer_registrations :
  exists r,
    registrations (trace host (posix_timer cb data) s) =
      [(CLOCK_REALTIME,
        set_sival_ptr data
          (set_sigev_notify_function cb
             (set_sigev_notify SIGEV_THREAD sigevent_zero)),
        r)].
Proof.
  destruct (posix_timer_trace host cb data s) as (r & Ht & _).
  exists r. rewrite Ht. reflexivity.
Qed.

Lemma posix_timer_single_call :
  exists c,
    trace host (posix_timer cb data) s = [c] /\ is_timer_create c = true.
Proof.
  destruct (posix_timer_trace host cb data s) as (r & Ht & _).
  eexists. split; [exact Ht | reflexivity].
Qed.

(** C4: the context pointer reaches the host as given: the one request
    handed over carries [data] in [sigev_value.sival_ptr], for every
    [data]; the wrapper makes no other call (no allocation, no release, no
    call of the callback), and choosing another context changes that member
    of the request and nothing else. *)
Theorem posix_timer_context_passed_through :
  exists clk sev r,
    registrations (trace host (posix_timer cb data) s) = [(clk, sev, r)]
    /\ sival_ptr (sigev_value sev) = data
    /\ length (trace host (posix_timer cb data) s) = 1%nat
    /\ forallb (fun c => negb (touches_heap c || runs_callback c))
         (trace host (posix_timer cb data) s) = true
    /\ forall data' s',
         exists r',
           registrations (trace host (posix_timer cb data') s') =
             [(clk, set_sival_ptr data' sev, r')].
Proof.
  destruct posix_timer_registrations as (r & Hr).
  destruct posix_timer_single_call as (c & Hc & _).
  destruct (posix_timer_trace host cb data s) as (r0 & Ht0 & _).
  eexists _, _, r. split; [exact Hr|]. split; [reflexivity|].
  split; [rewrite Hc; reflexivity|].
  split; [rewrite Ht0; reflexivity|].
  intros data' s'.
  destruct (posix_timer_trace host cb data' s') as (r' & Ht & _).
  exists r'. rewrite Ht. reflexivity.
Qed.

(** C5: the request asks for notification by thread ([SIGEV_THREAD]) with
    the given callback as the function to run and the context as its
    argument, and the wrapper itself never calls the callback. *)
Theorem posix_timer_thread_notification :
  exists clk sev r,
    registrations (trace host (posix_timer cb data) s) = [(clk, sev, r)]
    /\ sigev_notify sev = SIGEV_THREAD
    /\ sigev_notify_function sev = cb
    /\ sigev_value sev = {| sival_ptr := data |}
    /\ forallb (fun c => negb (runs_callback c))
         (trace host (posix_timer cb data) s) = true.
Proof.
  destruct (posix_timer_trace host cb data s) as (r & Ht & _).
  eexists _, _, r. rewrite Ht. repeat split; reflexivity.
Qed.

(** C6: the wrapper registers once, against [CLOCK_REALTIME], and against
    no other clock. *)
Theorem posix_timer_realtime_clock :
  map (fun g => g.1.1) (registrations (trace host (posix_timer cb data) s)) =
    [CLOCK_REALTIME]
  /\ forall clk sev r,
       In (clk, sev, r) (registrations (trace host (posix_timer cb data) s)) ->
       clk = CLOCK_REALTIME /\ clk <> CLOCK_MONOTONIC.
Proof.
  destruct posix_timer_registrations as (r & Hr). rewrite Hr.
  split; [reflexivity|].
  intros clk sev r0 [H | []]. injection H as <- _ _.
  split; [reflexivity | discriminate].
Qed.

(** C8: the wrapper makes its one registration call and returns: on every
    answer of the host the body ends after exactly one call, the run
    yields a value, and the call made is not one that waits. *)
Theorem posix_timer_returns_at_once :
  calls_exactly 1 (posix_timer cb data)
  /\ exists v s' c,
       run host (posix_timer cb data) s = (v, s', [c])
       /\ is_timer_create c = true
       /\ blocks c = false.
Proof.
  split.
  - apply calls_vis. intros r. simpl.
    destruct (tc_ret r =? -1); apply calls_ret.
  - pose proof (run_posix_timer host cb data s) as H. cbv zeta in H.
    eexists _, _, _. split; [exact H|]. split; reflexivity.
Qed.

(** C9: no argument is checked: whatever [cb] and [data] are, the null
    pointer included, the registration is issued and carries both as
    given. *)
Theorem posix_timer_no_validation :
  map (fun g => (sigev_notify_function g.1.2, sival_ptr (sigev_value g.1.2)))
      (registrations (trace host (posix_timer cb data) s)) = [(cb, data)]
  /\ map (fun g => (sigev_notify_function g.1.2, sival_ptr (sigev_value g.1.2)))
       (registrations (trace host (posix_timer NULL NULL) s)) = [(NULL, NULL)].
Proof.
  destruct posix_timer_registrations as (r & Hr). rewrite Hr.
  destruct (posix_timer_trace host NULL NULL s) as (r' & Ht & _). rewrite Ht.
  split; reflexivity.
Qed.

(** C10: the members of the request other than [sigev_notify],
    [sigev_notify_function] and [sigev_value] are zero: the signal number
    is 0 and the thread attributes are the null pointer. *)
Theorem posix_timer_zero_members :
  exists clk sev r,
    registrations (trace host (posix_timer cb data) s) = [(clk, sev, r)]
    /\ sigev_signo sev = 0
    /\ sigev_notify_attributes sev = NULL
    /\ sev = set_sival_ptr (sival_ptr (sigev_value sev))
               (set_sigev_notify_function (sigev_notify_function sev)
                  (set_sigev_notify (sigev_notify sev) sigevent_zero)).
Proof.
  destruct posix_timer_registrations as (r & Hr).
  eexists _, _, r. split; [exact Hr|]. repeat split; reflexivity.
Qed.
End Request.

(** ** Arming *)

Lemma host_timer_create_unset c sev k r k' v :
  host_timer_create c sev k = (r, k') ->
  tc_ret r = 0 ->
  tc_timerid r = Some v ->
  k_timers k' !! v =
    Some {| kt_clock := c; kt_sev := sev; kt_setting := None |}.
Proof.
  unfold host_timer_create, fail_create.
  destruct (negb _); [intros [= <- <-]; discriminate|].
  destruct (_ <=? _)%nat; [intros [= <- <-]; discriminate|].
  intros [= <- <-] _ [= <-]. simpl. apply lookup_insert_eq.
Qed.

(** C7: the wrapper only registers: in every run its single call is
    [timer_create] and no call sets an expiration or an interval; on the
    table host the timer a successful run leaves behind has no setting. *)
Theorem posix_timer_does_not_arm :
  (forall (S : Type) (host : forall X : Type, hostE X -> S -> X * S)
          (cb : callback) (data : ptr) (s : S),
      length (trace host (posix_timer cb data) s) = 1%nat
      /\ forallb is_timer_create (trace host (posix_timer cb data) s) = true
      /\ filter (fun c => arms c = true) (trace host (posix_timer cb data) s) = [])
  /\ (forall (k : kernel) (cb : callback) (data : ptr) clk sev r v,
        In (clk, sev, r)
           (registrations (trace table_host (posix_timer cb data) k)) ->
        tc_ret r = 0 ->
        tc_timerid r = Some v ->
        exists t,
          k_timers (final table_host (posix_timer cb data) k) !! v = Some t
          /\ kt_setting t = None).
Proof.
  split.
  - intros S host cb data s.
    destruct (posix_timer_trace host cb data s) as (r & Ht & _).
    rewrite Ht. repeat split; reflexivity.
  - intros k cb data clk sev r v Hin Hret Hid.
    pose proof (run_posix_timer table_host cb data k) as H. cbv zeta in H.
    unfold trace in Hin. unfold final. rewrite H in Hin |- *. clear H.
    destruct Hin as [Hin | []]. injection Hin as <- <- Hr.
    cbn [fst snd table_host] in Hr |- *. eexists. split.
    + eapply host_timer_create_unset; [apply surjective_pairing | |];
        rewrite Hr; assumption.
    + reflexivity.
Qed.

Lemma posix_timer_does_not_arm_witness :
  In (CLOCK_REALTIME, sev_4096_42, reply_id 3)
     (registrations (trace table_host (posix_timer 4096 42) booted_3))
  /\ exists t,
       k_timers (final table_host (posix_timer 4096 42) booted_3) !! 3 = Some t
       /\ kt_setting t = None.
Proof.
  split; [left; vm_compute; reflexivity|].
  apply (proj2 posix_timer_does_not_arm booted_3 4096 42
           CLOCK_REALTIME sev_4096_42 (reply_id 3) 3);
    [left; vm_compute; reflexivity | reflexivity | reflexivity].
Defined.

(** ** What the caller can read off the returned value *)

Section Returned.
Context {S : Type}.
Variable host : forall X : Type, hostE X -> S -> X * S.
Variables (cb : callback) (data : ptr) (s : S).

(** X1: when the host failed or stored an identifier, the caller sees 0
    exactly when the registration failed or the identifier stored is 0:
    the returned 0 means failure only as far as the host never hands out
    the identifier 0. *)
Theorem posix_timer_zero_iff clk sev r :
  In (clk, sev, r) (registrations (trace host (posix_timer cb data) s)) ->
  tc_ret r = -1 \/ is_Some (tc_timerid r) ->
  result host (posix_timer cb data) s = Some 0
  <-> tc_ret r = -1 \/ tc_timerid r = Some 0.
Proof.
  intros Hin Hhost. rewrite (posix_timer_registered host cb data s _ _ _ Hin).
  destruct (Z.eqb_spec (tc_ret r) (-1)) as [Heq | Hne].
  - split; [intros _; left; exact Heq | reflexivity].
  - destruct Hhost as [Hret | [v Hid]]; [contradiction|]. rewrite Hid.
    split; [intros H; right; exact H | intros [H | H]; [contradiction | exact H]].
Qed.

(** X2: [id] is never initialised by the wrapper: the returned value is
    indeterminate exactly when the host returned something other than -1
    and stored nothing through [timerid]. *)
Theorem posix_timer_indeterminate_iff clk sev r :
  In (clk, sev, r) (registrations (trace host (posix_timer cb data) s)) ->
  result host (posix_timer cb data) s = None
  <-> tc_ret r <> -1 /\ tc_timerid r = None.
Proof.
  intros Hin. rewrite (posix_timer_registered host cb data s _ _ _ Hin).
  destruct (Z.eqb_spec (tc_ret r) (-1)) as [Heq | Hne].
  - split; [discriminate | intros [H _]; contradiction].
  - split; [intros H; split; assumption | intros [_ H]; exact H].
Qed.
End Returned.

Lemma posix_timer_zero_iff_witness :
  In (CLOCK_REALTIME, sev_4096_42, reply_id 3)
     (registrations (trace table_host (posix_timer 4096 42) booted_3))
  /\ (tc_ret (reply_id 3) = -1 \/ is_Some (tc_timerid (reply_id 3)))
  /\ (result table_host (posix_timer 4096 42) booted_3 = Some 0
      <-> tc_ret (reply_id 3) = -1 \/ tc_timerid (reply_id 3) = Some 0).
Proof.
  split; [left; vm_compute; reflexivity|].
  split; [right; exists 3; reflexivity|].
  apply (posix_timer_zero_iff table_host 4096 42 booted_3
           CLOCK_REALTIME sev_4096_42 (reply_id 3));
    [left; vm_compute; reflexivity | right; exists 3; reflexivity].
Defined.

Lemma posix_timer_indeterminate_iff_witness :
  In (CLOCK_REALTIME, sev_4096_42, reply_unstored)
     (registrations
        (trace (fixed_host reply_unstored) (posix_timer 4096 42) tt))
  /\ (result (fixed_host reply_unstored) (posix_timer 4096 42) tt = None
      <-> tc_ret reply_unstored <> -1 /\ tc_timerid reply_unstored = None).
Proof.
  split; [left; reflexivity|].
  apply (posix_timer_indeterminate_iff (fixed_host reply_unstored) 4096 42 tt
           CLOCK_REALTIME sev_4096_42 reply_unstored).
  left; reflexivity.
Defined.

(** ** Calling the wrapper again *)

Section Sequence.
Context {S : Type}.
Variable host : forall X : Type, hostE X -> S -> X * S.


End Sequence.
